(** * meta_types: compile-time analysis of variadic packs

    A shallow embedding of [iso::meta_type::var_pack] (meta_types.hpp).

    The header has two kinds of machinery:
    - class templates selected by partial specialisation ([is_same],
      [is_types_unique], [is_type_list]): recursion over a list of types;
    - sets of overloaded [constexpr] functions ([duplicate], [contains_list],
      [is_types_val_unique_v], [is_type_val_list], [type::get]) whose result
      is decided by C++ overload resolution on the declared types of the
      arguments.

    Types are the elements of an arbitrary carrier [ty] with decidable
    identity; [const int] and [int] are two of them.  A function argument is
    a pair of its declared type (after the decay of by-value parameter
    passing) and its content.  Overload
    resolution is modelled explicitly: a call is ill-formed ([None]) when no
    overload is viable or when no viable overload is better than all the
    others. *)

From Stdlib Require Import ZArith.
From stdpp Require Import base option list.

Section var_pack.

Context {ty : Type} `{!EqDecision ty} {val : Type}.

(** [unqual T]: the type [T] without its top-level cv-qualifiers, which is
    the type of a by-value parameter declared [const T]. *)
Variable unqual : ty → ty.

(** [convertible A P]: an implicit conversion from the type [A] to the
    distinct type [P] exists; [convert A P v] is the converted content.
    Both are parameters: every result below holds whatever the conversions
    of the language are. *)
Variable convertible : ty → ty → bool.
Variable convert : ty → ty → val → val.

(** An argument of a call: declared type and content. *)
Record arg := Arg { arg_type : ty; arg_value : val }.

(** ** Overload resolution *)

(** Rank of the implicit conversion sequence that binds one argument to one
    by-value parameter.  The identity sequence is better than any other.
    The fixed parameters of one overload set of the header all have the same
    type, so that two conversions that meet in a comparison are the same
    conversion and one rank for all of them is enough. *)
Inductive ics := Identity | Conversion.

Definition ics_le (r1 r2 : ics) : bool :=
  match r1, r2 with Conversion, Identity => false | _, _ => true end.

Definition ics_lt (r1 r2 : ics) : bool :=
  match r1, r2 with Identity, Conversion => true | _, _ => false end.

(** A function parameter [const P]: [P] is a type fixed by the enclosing
    class ([Fixed]) or the [n]-th template parameter of the function
    ([Deduced]).  The top-level cv-qualifiers of a parameter type are no part
    of the function type: the parameter [const P] of a fixed [P] has the type
    [unqual P], whatever the qualifiers of [P]; a deduced [P] is deduced
    without qualifiers, as the declared type of the argument. *)
Inductive param := Fixed (P : ty) | Deduced (n : nat).

(** One declaration of an overload set.  [ov_template] tells a function
    template from a function; [ov_pack] tells whether the parameter list ends
    with a pack [const Rest...]; [ov_beats] lists the positions, in the
    overload set, of the function templates this one is more specialised
    than by the partial ordering of templates; [ov_body] is what the body
    returns for the call at hand ([None] if instantiating it is
    ill-formed).

    In the header the partial ordering has three sources: a template whose
    two parameters are one template parameter against the template with two
    template parameters ([duplicate::is_same_v]); a template of one
    parameter against the variadic template whose pack is then empty
    ([duplicate_types_val], [is_types_val_unique_v], [type::get]); and, in
    [type::get], the template of first parameter [const Type] against the
    one of first parameter [const First], on which the assertion
    "Test for get_by_type expression 1" of the unit tests depends. *)
Record overload (R : Type) := Overload {
  ov_template : bool;
  ov_params : list param;
  ov_pack : bool;
  ov_beats : list nat;
  ov_body : option R
}.
Global Arguments Overload {R} _ _ _ _ _.
Global Arguments ov_template {R} _.
Global Arguments ov_params {R} _.
Global Arguments ov_pack {R} _.
Global Arguments ov_beats {R} _.
Global Arguments ov_body {R} _.

(** The type already deduced for the [n]-th template parameter. *)
Fixpoint deduced (env : list (nat * ty)) (n : nat) : option ty :=
  match env with
  | [] => None
  | (m, T) :: env' => if Nat.eqb m n then Some T else deduced env' n
  end.

(** Template argument deduction and the conversion of every argument.  A
    fixed parameter accepts its own type, top-level cv-qualifiers apart, by
    identity and a type that converts to it by a conversion; a deduced
    parameter takes the type of the argument, and
    must take the same type at each of its occurrences; the elements of a
    trailing pack are deduced one by one. *)
Fixpoint bind_params (ps : list param) (pack : bool) (env : list (nat * ty))
    (As : list ty) : option (list ics) :=
  match ps, As with
  | [], [] => Some []
  | [], _ :: _ => if pack then Some (replicate (length As) Identity) else None
  | _ :: _, [] => None
  | Fixed P :: ps', A :: As' =>
      r ← (if bool_decide (A = unqual P) then Some Identity
           else if convertible A (unqual P) then Some Conversion else None);
      rs ← bind_params ps' pack env As';
      Some (r :: rs)
  | Deduced n :: ps', A :: As' =>
      match deduced env n with
      | Some B =>
          if bool_decide (A = B)
          then rs ← bind_params ps' pack env As'; Some (Identity :: rs)
          else None
      | None =>
          rs ← bind_params ps' pack ((n, A) :: env) As'; Some (Identity :: rs)
      end
  end.

(** Comparison of the conversions of two candidates, argument by
    argument. *)
Fixpoint none_worse (r1 r2 : list ics) : bool :=
  match r1, r2 with
  | a :: r1', b :: r2' => ics_le a b && none_worse r1' r2'
  | _, _ => true
  end.

Fixpoint some_better (r1 r2 : list ics) : bool :=
  match r1, r2 with
  | a :: r1', b :: r2' => ics_lt a b || some_better r1' r2'
  | _, _ => false
  end.

(** A viable candidate: position in the overload set, declaration, and the
    conversion ranks of the arguments. *)
Definition candidate (R : Type) : Type := nat * overload R * list ics.

Fixpoint candidates {R} (i : nat) (set : list (overload R)) (As : list ty)
    : list (candidate R) :=
  match set with
  | [] => []
  | f :: set' =>
      match bind_params (ov_params f) (ov_pack f) [] As with
      | Some rs => (i, f, rs) :: candidates (S i) set' As
      | None => candidates (S i) set' As
      end
  end.

(** [better c1 c2]: no argument of [c1] converts worse than in [c2], and
    some argument converts better, or else [c1] is not a template and [c2]
    is, or else both are templates and [c1] is the more specialised. *)
Definition better {R} (c1 c2 : candidate R) : bool :=
  let '(_, f1, r1) := c1 in
  let '(i2, f2, r2) := c2 in
  none_worse r1 r2 &&
  (some_better r1 r2
   || (negb (ov_template f1) && ov_template f2)
   || (ov_template f1 && ov_template f2 && existsb (Nat.eqb i2) (ov_beats f1))).

(** [best cs c]: [c] is better than every other candidate of [cs]. *)
Definition best {R} (cs : list (candidate R)) (c : candidate R) : bool :=
  forallb (λ c', Nat.eqb c.1.1 c'.1.1 || better c c') cs.

(** The call [f(As...)] over the overload set [set]: the one viable function
    that is better than every other viable function, if there is one. *)
Definition resolve {R} (set : list (overload R)) (As : list ty) : option R :=
  let cs := candidates 0 set As in
  match List.filter (best cs) cs with
  | [c] => ov_body c.1.2
  | _ => None
  end.

(** The parameter object [const P first] initialised from an argument: an
    object declared of type [P], with the content of the argument, converted
    unless the argument has the type [unqual P]. *)
Definition pass (P : ty) (a : arg) : arg :=
  if bool_decide (arg_type a = unqual P) then Arg P (arg_value a)
  else Arg P (convert (arg_type a) (unqual P) (arg_value a)).

(** The unary right fold [(e && ...)]; it is [true] over an empty pack. *)
Definition fold_and (es : list bool) : bool := foldr andb true es.

(** ** [var_pack::is_same], [var_pack::is_types_unique] *)

(** Primary template [false], partial specialisation [is_same<T, T>]
    [true]. *)
Definition is_same_v (T U : ty) : bool := bool_decide (T = U).

(** [duplicate_type<First, Rest...>], with the specialisation
    [duplicate_type<First>] for an empty [Rest]. *)
Fixpoint duplicate_type (First : ty) (Rest : list ty) : bool :=
  match Rest with
  | [] => true
  | Second :: Rest' =>
      fold_and (map (λ R, negb (is_same_v First R)) Rest)
      && duplicate_type Second Rest'
  end.

(** [is_types_unique<Types...>::value]: [true] when [sizeof...(Types)] is
    zero. *)
Definition is_types_unique (Types : list ty) : bool :=
  match Types with
  | [] => true
  | First :: Rest => duplicate_type First Rest
  end.

Definition is_types_unique_v (Types : list ty) : bool := is_types_unique Types.

(** ** [var_pack::duplicate] *)

(** [is_same_v(const T, const T)] and [is_same_v(const T, const U)]: the
    parameters carry no name, the arguments are not looked at. *)
Definition duplicate_is_same_v (a b : arg) : option bool :=
  resolve
    [ Overload true [Deduced 0; Deduced 0] false [1] (Some true);
      Overload true [Deduced 0; Deduced 1] false [] (Some false) ]
    [arg_type a; arg_type b].

(** [duplicate_types_val()], [duplicate_types_val(const First)] and
    [duplicate_types_val(const First first, const Rest... rest)].  Every
    call in the body of the last one is resolved when the body is
    instantiated, whatever the values are. *)
Fixpoint duplicate_types_val (args : list arg) : option bool :=
  resolve
    [ Overload false [] false [] (Some true);
      Overload true [Deduced 0] false [2] (Some true);
      Overload true [Deduced 0] true []
        (match args with
         | [] => None
         | first :: rest =>
             differ ← mapM (λ r, negb <$> duplicate_is_same_v first r) rest;
             others ← duplicate_types_val rest;
             Some (fold_and differ && others)
         end) ]
    (arg_type <$> args).

(** ** [var_pack::is_types_val_unique_v] *)

(** [is_types_val_unique_v()], [is_types_val_unique_v(const First)] and
    [is_types_val_unique_v(const First first, const Rest... rest)], which
    returns [duplicate::duplicate_types_val(first, rest...)]. *)
Definition is_types_val_unique_v (args : list arg) : option bool :=
  resolve
    [ Overload false [] false [] (Some true);
      Overload true [Deduced 0] false [2] (Some true);
      Overload true [Deduced 0] true [] (duplicate_types_val args) ]
    (arg_type <$> args).

(** ** [var_pack::contains_list] *)

(** [is_parameter_inside(const TypeFirst)] and the template
    [is_parameter_inside(const Value value)], which asks
    [contains_list<TypesRest...>] or, in the specialisation
    [contains_list<TypeFirst>], answers [false]. *)
Fixpoint contains_list_is_parameter_inside (TypeFirst : ty)
    (TypesRest : list ty) (value : arg) : option bool :=
  resolve
    [ Overload false [Fixed TypeFirst] false [] (Some true);
      Overload true [Deduced 0] false []
        (match TypesRest with
         | [] => Some false
         | TypeSecond :: TypesRest' =>
             contains_list_is_parameter_inside TypeSecond TypesRest' value
         end) ]
    [arg_type value].

(** [contains()] and [contains(const First first, const Rest... rest)]. *)
Fixpoint contains_list_contains (TypeFirst : ty) (TypesRest : list ty)
    (args : list arg) : option bool :=
  resolve
    [ Overload false [] false [] (Some true);
      Overload true [Deduced 0] true []
        (match args with
         | [] => None
         | first :: rest =>
             inside ←
               contains_list_is_parameter_inside TypeFirst TypesRest first;
             others ← contains_list_contains TypeFirst TypesRest rest;
             Some (if inside : bool then others else false)
         end) ]
    (arg_type <$> args).

(** ** [var_pack::is_type_list] *)

(** [is_parameter_inside<T>::value], in the primary template and in the
    specialisation [is_type_list<TypeFirst>]. *)
Fixpoint is_type_list_is_parameter_inside (TypeFirst : ty)
    (TypeRest : list ty) (T : ty) : bool :=
  match TypeRest with
  | [] => if is_same_v T TypeFirst then true else false
  | TypeSecond :: TypeRest' =>
      if is_same_v T TypeFirst then true
      else is_type_list_is_parameter_inside TypeSecond TypeRest' T
  end.

(** [contains<ParamFirst, ParamRest...>::value], with the specialisation
    [contains<ParamFirst>]. *)
Fixpoint is_type_list_contains (TypeFirst : ty) (TypeRest : list ty)
    (ParamFirst : ty) (ParamRest : list ty) : bool :=
  match ParamRest with
  | [] =>
      if is_type_list_is_parameter_inside TypeFirst TypeRest ParamFirst
      then true else false
  | ParamSecond :: ParamRest' =>
      if is_type_list_is_parameter_inside TypeFirst TypeRest ParamFirst
      then is_type_list_contains TypeFirst TypeRest ParamSecond ParamRest'
      else false
  end.

(** [contains_v<Params...>]: [true] when [sizeof...(Params)] is zero. *)
Definition is_type_list_contains_v (TypeFirst : ty) (TypeRest : list ty)
    (Params : list ty) : bool :=
  match Params with
  | [] => true
  | ParamFirst :: ParamRest =>
      is_type_list_contains TypeFirst TypeRest ParamFirst ParamRest
  end.

(** ** [var_pack::is_type_val_list] *)

(** [contains_v()] and [contains_v(const First first, const Rest... rest)]. *)
Definition is_type_val_list_contains_v (TypeFirst : ty) (TypesRest : list ty)
    (args : list arg) : option bool :=
  resolve
    [ Overload false [] false [] (Some true);
      Overload true [Deduced 0] true []
        (contains_list_contains TypeFirst TypesRest args) ]
    (arg_type <$> args).

(** ** [var_pack::type] *)

(** The five overloads of [type<Type, defaultValue>::get], in the order of
    the header:
    [get()], [get(const Type first)], [get(const First)],
    [get(const Type first, const Rest...)] and
    [get(const First, const Rest... rest)].
    The third and the fourth are more specialised than the fifth. *)
Fixpoint type_get (Target : ty) (defaultValue : val) (args : list arg)
    : option arg :=
  resolve
    [ Overload false [] false [] (Some (Arg Target defaultValue));
      Overload false [Fixed Target] false [] (pass Target <$> head args);
      Overload true [Deduced 0] false [4] (Some (Arg Target defaultValue));
      Overload true [Fixed Target] true [4] (pass Target <$> head args);
      Overload true [Deduced 0] true []
        (match args with
         | [] => None
         | _ :: rest => type_get Target defaultValue rest
         end) ]
    (arg_type <$> args).

End var_pack.

Arguments arg : clear implicits.

(** * Constants as types, concepts *)

Section const_value.

Context {ty : Type} `{!EqDecision ty} {val : Type} `{!EqDecision val}.

#[global] Instance arg_eq_dec : EqDecision (arg ty val).
Proof. solve_decision. Defined.

(** The types of a program that uses [ConstValue]: the types of the carrier
    [ty] and, for every constant [param], the class [ConstValue<param>].  Two
    specialisations of the class template are one type exactly when their
    template arguments are one constant, of the same type and the same
    value. *)
Inductive const_type :=
  | Plain (T : ty)
  | ConstValue (param : arg ty val).

#[global] Instance const_type_eq_dec : EqDecision const_type.
Proof. solve_decision. Defined.

(** [const_t<value>] is the type [ConstValue<value>]. *)
Definition const_t (value : arg ty val) : const_type := ConstValue value.

(** [const_v<value>] is the object [ConstValue<value>{}] of an empty class:
    an argument of declared type [const_t<value>] and without content. *)
Definition const_v (value : arg ty val) : arg const_type (option val) :=
  Arg (const_t value) None.

(** The top-level cv-qualifiers in [const_type]: those of the carrier for a
    type of the carrier; a class [ConstValue<param>] stands here without
    qualifiers. *)
Definition const_unqual (unqual : ty → ty) (T : const_type) : const_type :=
  match T with
  | Plain T => Plain (unqual T)
  | ConstValue param => ConstValue param
  end.

(** The concept [types_unique<Types...>]. *)
Definition types_unique (Types : list ty) : bool := is_types_unique_v Types.

End const_value.

Arguments const_type : clear implicits.

(** * The unit tests of the header

    The types and values of [namespace unit_tests], and its [static_assert]s
    evaluated on the embedding. *)

Module unit_tests.

Local Open Scope Z_scope.

(** [TestType1] to [TestType3] are empty structures, [TestType4] to
    [TestType6] scoped enumerations; the others are the arithmetic types the
    tests use, and [const int]. *)
Inductive cxx_type :=
  | TestType1 | TestType2 | TestType3
  | TestType4 | TestType5 | TestType6
  | Bool | Int | Unsigned | Long | UnsignedLong
  | ConstInt.

#[export] Instance cxx_type_eq_dec : EqDecision cxx_type.
Proof. solve_decision. Defined.

Definition TestType7 : cxx_type := Bool.
Definition TestType8 : cxx_type := UnsignedLong.
Definition TestType9 : cxx_type := Unsigned.

(** [const int] without its qualifier is [int]; no other of these types is
    qualified. *)
Definition unqual (T : cxx_type) : cxx_type :=
  match T with
  | ConstInt => Int
  | _ => T
  end.

Definition arithmetic (T : cxx_type) : bool :=
  match T with
  | Bool | Int | Unsigned | Long | UnsignedLong | ConstInt => true
  | _ => false
  end.

(** Arithmetic types convert to one another; structures and scoped
    enumerations have no implicit conversion. *)
Definition convertible (A P : cxx_type) : bool := arithmetic A && arithmetic P.

Definition wrap_signed (w v : Z) : Z :=
  (v + 2 ^ (w - 1)) mod 2 ^ w - 2 ^ (w - 1).

(** The content after a conversion to [P], with [int] of 32 and [long] of 64
    bits. *)
Definition convert (A P : cxx_type) (v : Z) : Z :=
  match P with
  | Bool => if v =? 0 then 0 else 1
  | Int | ConstInt => wrap_signed 32 v
  | Unsigned => v mod 2 ^ 32
  | Long => wrap_signed 64 v
  | UnsignedLong => v mod 2 ^ 64
  | _ => v
  end.

Definition value : Type := arg cxx_type Z.

(** A value-initialised object [T{}]. *)
Definition init (T : cxx_type) : value := Arg T 0.

Definition TestType4_TestValue0 : value := Arg TestType4 0x5667.
Definition TestType4_TestValue1 : value := Arg TestType4 0xA100.
Definition TestType4_TestValue2 : value := Arg TestType4 0x7832AD01.
Definition TestType5_TestValue0 : value := Arg TestType5 (-777).
Definition TestType5_TestValue1 : value := Arg TestType5 256901.
Definition TestType6_TestValue0 : value := Arg TestType6 0.
Definition TestType6_TestValue1 : value := Arg TestType6 1.
Definition TestType6_TestValue3 : value := Arg TestType6 3.
Definition true_ : value := Arg Bool 1.
Definition false_ : value := Arg Bool 0.

Definition unique_args (args : list value) : bool :=
  is_types_unique_v (arg_type <$> args).

Definition unique_args2 (args : list value) : option bool :=
  is_types_val_unique_v unqual convertible args.

Definition types456inside (args : list value) : bool :=
  is_type_list_contains_v TestType4 [TestType5; TestType6] (arg_type <$> args).

(** [var_pack::type<T, defaultValue>::get(args...)]. *)
Definition get (T : cxx_type) (defaultValue : Z) (args : list value)
    : option value :=
  type_get unqual convertible convert T defaultValue args.

(** [is_type_list<TestType1, TestType2, TestType3, TestType4, TestType7,
    TestType8, TestType9>::contains_v]. *)
Definition types1234789 (Params : list cxx_type) : bool :=
  is_type_list_contains_v TestType1
    [TestType2; TestType3; TestType4; TestType7; TestType8; TestType9] Params.

(** [is_type_val_list<signed, TestType4, bool, unsigned, long>::contains_v]. *)
Definition signed_type4_bool_unsigned_long (args : list value) : option bool :=
  is_type_val_list_contains_v unqual convertible
    Int [TestType4; Bool; Unsigned; Long] args.

(** [test_with_requires123(const Args...)], a function template constrained
    by [types_unique<Args...>] and by
    [is_type_list<TestType1, TestType2, TestType3>::contains_v<Args...>]: the
    call is ill-formed unless both hold, and returns [true]. *)
Definition test_with_requires123 (args : list value) : option bool :=
  if types_unique (arg_type <$> args)
     && is_type_list_contains_v TestType1 [TestType2; TestType3]
          (arg_type <$> args)
  then Some true else None.

(** The conversions between the types of packs of wrapped constants: a
    class [ConstValue<param>] converts to no other type. *)
Definition no_conversion (A P : const_type cxx_type Z) : bool := false.

(** Packs for the examples below. *)

Definition same_type_different_contents : list value :=
  [TestType4_TestValue2; false_; TestType5_TestValue1; true_].

Definition arithmetic_then_unsigned_long : list value :=
  [true_; Arg Int (-1); Arg UnsignedLong 367; Arg UnsignedLong 5].


End unit_tests.

(** * Properties *)

Section var_pack_properties.

Context {ty : Type} `{!EqDecision ty} {val : Type}.
Context (unqual : ty → ty).
Context (convertible : ty → ty → bool) (convert : ty → ty → val → val).

(** ** Which overload a call selects *)

Lemma none_worse_pack n :
  none_worse (replicate n Identity) (replicate n Identity) = true.
Proof. induction n as [|n IH]; [done|]. simpl. by rewrite IH. Qed.

Lemma some_better_pack n :
  some_better (replicate n Identity) (replicate n Identity) = false.
Proof. induction n as [|n IH]; [done|]. simpl. by rewrite IH. Qed.

Ltac resolve_call :=
  unfold resolve; simpl;
  repeat (case_bool_decide; simplify_eq; simpl);
  repeat match goal with
    | |- context [convertible ?A ?P] => destruct (convertible A P); simpl
    end;
  rewrite ?none_worse_pack, ?some_better_pack; simpl;
  try done.

(** [duplicate::is_same_v]: the first template is viable only when both
    arguments have one declared type, and is then the more specialised. *)
Lemma resolve_is_same_v {R} (b1 b2 : option R) (A B : ty) :
  resolve unqual convertible
    [ Overload true [Deduced 0; Deduced 0] false [1] b1;
      Overload true [Deduced 0; Deduced 1] false [] b2 ] [A; B]
  = if bool_decide (A = B) then b1 else b2.
Proof. resolve_call. Qed.

(** The sets with a function of no parameter, a template of one parameter
    and a variadic template ([duplicate_types_val],
    [is_types_val_unique_v]). *)
Lemma resolve_nullary_unary_variadic {R} (b1 b2 b3 : option R) (As : list ty) :
  resolve unqual convertible
    [ Overload false [] false [] b1;
      Overload true [Deduced 0] false [2] b2;
      Overload true [Deduced 0] true [] b3 ] As
  = match As with [] => b1 | [_] => b2 | _ :: _ :: _ => b3 end.
Proof. destruct As as [|A [|B As]]; resolve_call. Qed.

(** The sets with a function of no parameter and a variadic template
    ([contains_list::contains], [is_type_val_list::contains_v]). *)
Lemma resolve_nullary_variadic {R} (b1 b2 : option R) (As : list ty) :
  resolve unqual convertible
    [ Overload false [] false [] b1;
      Overload true [Deduced 0] true [] b2 ] As
  = match As with [] => b1 | _ :: _ => b2 end.
Proof. destruct As as [|A [|B As]]; resolve_call. Qed.

(** [contains_list::is_parameter_inside]: the function of parameter
    [const TypeFirst] wins exactly on an argument of declared type
    [unqual TypeFirst]; an argument of another type binds to the template by
    identity, which no conversion beats. *)
Lemma resolve_is_parameter_inside {R} (b1 b2 : option R) (TypeFirst A : ty) :
  resolve unqual convertible
    [ Overload false [Fixed TypeFirst] false [] b1;
      Overload true [Deduced 0] false [] b2 ] [A]
  = if bool_decide (A = unqual TypeFirst) then b1 else b2.
Proof. resolve_call. Qed.

(** [type::get]: the two overloads of parameter [const Type] win exactly on a
    first argument of declared type [unqual Type]. *)
Lemma resolve_get {R} (b1 b2 b3 b4 b5 : option R) (Target : ty) (As : list ty) :
  resolve unqual convertible
    [ Overload false [] false [] b1;
      Overload false [Fixed Target] false [] b2;
      Overload true [Deduced 0] false [4] b3;
      Overload true [Fixed Target] true [4] b4;
      Overload true [Deduced 0] true [] b5 ] As
  = match As with
    | [] => b1
    | [A] => if bool_decide (A = unqual Target) then b2 else b3
    | A :: _ :: _ => if bool_decide (A = unqual Target) then b4 else b5
    end.
Proof. destruct As as [|A [|B As]]; resolve_call. Qed.

#[local] Arguments resolve : simpl never.

(** ** The value-level checks decide on declared types

    The value-level membership functions compare the declared type of an
    argument with the allowed types without their top-level cv-qualifiers:
    the parameter [const TypeFirst] of [contains_list::is_parameter_inside]
    has the type [unqual TypeFirst]. *)

Lemma duplicate_is_same_v_types (a b : arg ty val) :
  duplicate_is_same_v unqual convertible a b
  = Some (is_same_v (arg_type a) (arg_type b)).
Proof.
  unfold duplicate_is_same_v, is_same_v.
  rewrite resolve_is_same_v. by case_bool_decide.
Qed.

Lemma differ_types (first : arg ty val) (rest : list (arg ty val)) :
  mapM (λ r, negb <$> duplicate_is_same_v unqual convertible first r) rest
  = Some (map (λ R, negb (is_same_v (arg_type first) R)) (arg_type <$> rest)).
Proof.
  induction rest as [|r rest IH]; [done|].
  simpl. rewrite duplicate_is_same_v_types. simpl.
  rewrite IH. done.
Qed.

Lemma duplicate_types_val_types (args : list (arg ty val)) :
  duplicate_types_val unqual convertible args
  = Some (is_types_unique (arg_type <$> args)).
Proof.
  induction args as [|first rest IH]; [done|].
  simpl. rewrite resolve_nullary_unary_variadic.
  destruct rest as [|second rest]; [done|].
  rewrite differ_types, IH. done.
Qed.

Lemma contains_list_is_parameter_inside_types
    (TypeFirst : ty) (TypesRest : list ty) (value : arg ty val) :
  contains_list_is_parameter_inside unqual convertible TypeFirst TypesRest value
  = Some (is_type_list_is_parameter_inside (unqual TypeFirst)
            (unqual <$> TypesRest) (arg_type value)).
Proof.
  revert TypeFirst.
  induction TypesRest as [|TypeSecond TypesRest IH]; intros TypeFirst; simpl;
    rewrite resolve_is_parameter_inside; unfold is_same_v;
    case_bool_decide; auto.
Qed.

Lemma contains_list_contains_types
    (TypeFirst : ty) (TypesRest : list ty) (args : list (arg ty val)) :
  contains_list_contains unqual convertible TypeFirst TypesRest args
  = Some (is_type_list_contains_v (unqual TypeFirst) (unqual <$> TypesRest)
            (arg_type <$> args)).
Proof.
  induction args as [|first rest IH]; [done|].
  simpl. rewrite resolve_nullary_variadic.
  rewrite contains_list_is_parameter_inside_types, IH. simpl.
  destruct rest; simpl; by case_match.
Qed.

Lemma is_type_val_list_contains_v_types
    (TypeFirst : ty) (TypesRest : list ty) (args : list (arg ty val)) :
  is_type_val_list_contains_v unqual convertible TypeFirst TypesRest args
  = Some (is_type_list_contains_v (unqual TypeFirst) (unqual <$> TypesRest)
            (arg_type <$> args)).
Proof.
  unfold is_type_val_list_contains_v.
  rewrite resolve_nullary_variadic, contains_list_contains_types.
  by destruct args.
Qed.

(** ** Membership, as a property of lists *)

Lemma is_parameter_inside_elem_of (TypeFirst : ty) (TypeRest : list ty) (T : ty) :
  is_type_list_is_parameter_inside TypeFirst TypeRest T = true
  ↔ T ∈ TypeFirst :: TypeRest.
Proof.
  revert TypeFirst.
  induction TypeRest as [|TypeSecond TypeRest IH]; intros TypeFirst; simpl;
    unfold is_same_v; case_bool_decide as E.
  - split; [intros _; subst; apply list_elem_of_here|done].
  - split; [done|]. by intros ->%list_elem_of_singleton.
  - split; [intros _; subst; apply list_elem_of_here|done].
  - rewrite IH, (elem_of_cons _ T TypeFirst).
    split; [by right|]. by intros [?|?].
Qed.

Lemma is_type_list_contains_Forall
    (TypeFirst : ty) (TypeRest : list ty) (ParamFirst : ty) (ParamRest : list ty) :
  is_type_list_contains TypeFirst TypeRest ParamFirst ParamRest = true
  ↔ Forall (λ T, T ∈ TypeFirst :: TypeRest) (ParamFirst :: ParamRest).
Proof.
  revert ParamFirst.
  induction ParamRest as [|ParamSecond ParamRest IH]; intros ParamFirst; simpl;
    rewrite Forall_cons, <- is_parameter_inside_elem_of;
    destruct (is_type_list_is_parameter_inside _ _ ParamFirst).
  - split; [by split|done].
  - split; [done|]. by intros [? _].
  - rewrite IH. split; [by split|]. by intros [_ ?].
  - split; [done|]. by intros [? _].
Qed.

Lemma is_type_list_contains_v_Forall
    (TypeFirst : ty) (TypeRest : list ty) (Params : list ty) :
  is_type_list_contains_v TypeFirst TypeRest Params = true
  ↔ Forall (λ T, T ∈ TypeFirst :: TypeRest) Params.
Proof.
  destruct Params as [|ParamFirst ParamRest]; simpl.
  - split; [constructor|done].
  - apply is_type_list_contains_Forall.
Qed.

(** ** Uniqueness, as a property of lists *)

Lemma fold_and_differ (First : ty) (Rest : list ty) :
  fold_and (map (λ R, negb (is_same_v First R)) Rest) = true ↔ First ∉ Rest.
Proof.
  induction Rest as [|R Rest IH]; simpl.
  - split; [intros _; apply not_elem_of_nil|done].
  - rewrite andb_true_iff, IH, negb_true_iff. unfold is_same_v.
    rewrite bool_decide_eq_false, not_elem_of_cons. done.
Qed.

Lemma duplicate_type_NoDup (First : ty) (Rest : list ty) :
  duplicate_type First Rest = true ↔ NoDup (First :: Rest).
Proof.
  revert First.
  induction Rest as [|Second Rest IH]; intros First.
  - simpl. split; [intros _; apply NoDup_singleton|done].
  - change (duplicate_type First (Second :: Rest))
      with (fold_and (map (λ R, negb (is_same_v First R)) (Second :: Rest))
            && duplicate_type Second Rest).
    rewrite andb_true_iff, fold_and_differ, IH, (NoDup_cons First). done.
Qed.

Lemma is_types_unique_NoDup (Types : list ty) :
  is_types_unique Types = true ↔ NoDup Types.
Proof.
  destruct Types as [|First Rest]; simpl.
  - split; [intros _; apply NoDup_nil_2|done].
  - apply duplicate_type_NoDup.
Qed.

Lemma is_types_val_unique_v_types (args : list (arg ty val)) :
  is_types_val_unique_v unqual convertible args
  = Some (is_types_unique_v (arg_type <$> args)).
Proof.
  unfold is_types_val_unique_v, is_types_unique_v.
  rewrite resolve_nullary_unary_variadic, duplicate_types_val_types.
  by destruct args as [|? [|? ?]].
Qed.

Lemma NoDup_types_positions (args : list (arg ty val)) :
  NoDup (arg_type <$> args)
  ↔ ∀ i j a b, i ≠ j → args !! i = Some a → args !! j = Some b →
      arg_type a ≠ arg_type b.
Proof.
  rewrite NoDup_alt. split.
  - intros H i j a b Hij Ha Hb Hab. apply Hij, (H i j (arg_type a)).
    + by rewrite list_lookup_fmap, Ha.
    + by rewrite list_lookup_fmap, Hb, Hab.
  - intros H i j T [a [-> Ha]]%list_lookup_fmap_Some
      [b [Hab Hb]]%list_lookup_fmap_Some.
    destruct (decide (i = j)) as [|Hij]; [done|].
    by destruct (H i j a b Hij Ha Hb).
Qed.

Lemma inserted_duplicate_not_NoDup {A} (l : list A) (k : nat) (x : A) :
  x ∈ l → ¬ NoDup (take k l ++ x :: drop k l).
Proof.
  rewrite <- (take_drop k l) at 1.
  rewrite elem_of_app, NoDup_app, NoDup_cons.
  intros [Hx|Hx] (_ & Hdisj & Hnot & _); [|done].
  apply (Hdisj x Hx), list_elem_of_here.
Qed.

Lemma is_types_unique_inserted (Types : list ty) (k : nat) (T : ty) :
  T ∈ Types → is_types_unique (take k Types ++ T :: drop k Types) = false.
Proof.
  intros HT. apply not_true_iff_false. rewrite is_types_unique_NoDup.
  by apply inserted_duplicate_not_NoDup.
Qed.

(** ** The extractor, as a scan of the pack

    [type::get] returns the first argument whose declared type is the target
    without its top-level cv-qualifiers, as an object of the target type. *)

Lemma type_get_nil (Target : ty) (defaultValue : val) :
  type_get unqual convertible convert Target defaultValue []
  = Some (Arg Target defaultValue).
Proof. done. Qed.

Lemma type_get_cons (Target : ty) (defaultValue : val) (first : arg ty val)
    (rest : list (arg ty val)) :
  type_get unqual convertible convert Target defaultValue (first :: rest)
  = if bool_decide (arg_type first = unqual Target)
    then Some (Arg Target (arg_value first))
    else type_get unqual convertible convert Target defaultValue rest.
Proof.
  simpl. rewrite resolve_get. unfold pass.
  destruct rest; simpl; by case_bool_decide.
Qed.


Lemma type_get_first_match (Target : ty) (defaultValue : val)
    (args : list (arg ty val)) (i : nat) (v : arg ty val) :
  args !! i = Some v →
  arg_type v = unqual Target →
  (∀ j w, j < i → args !! j = Some w → arg_type w ≠ unqual Target) →
  type_get unqual convertible convert Target defaultValue args
  = Some (Arg Target (arg_value v)).
Proof.
  revert i. induction args as [|first rest IH]; intros i Hi Hv Hbefore; [done|].
  rewrite type_get_cons. destruct i as [|i]; simpl in Hi.
  - injection Hi as ->. by rewrite bool_decide_true.
  - rewrite bool_decide_false.
    + apply (IH i); [done..|].
      intros j w Hj Hw. apply (Hbefore (S j) w); [lia|done].
    + apply (Hbefore 0 first); [lia|done].
Qed.

Lemma type_get_typed (Target : ty) (defaultValue : val)
    (args : list (arg ty val)) :
  ∃ v, type_get unqual convertible convert Target defaultValue args = Some v
       ∧ arg_type v = Target.
Proof.
  induction args as [|first rest IH].
  - by exists (Arg Target defaultValue).
  - rewrite type_get_cons. case_bool_decide; [by eexists|done].
Qed.

Lemma Arg_eta (v : arg ty val) : Arg (arg_type v) (arg_value v) = v.
Proof. by destruct v. Qed.

(** ** Properties of the checks and of the extractor *)

(** C1 (amended).  The value-level uniqueness check is well-formed on every
    pack of constant values and returns [true] iff no two distinct positions
    of the pack hold values of one declared type: the contents of the values
    never enter the decision, so two values of the same declared type and
    different contents make the pack non-unique. *)
Theorem is_types_val_unique_v_declared_types_distinct (P : list (arg ty val)) :
  ∃ unique, is_types_val_unique_v unqual convertible P = Some unique ∧
    (unique = true ↔
     ∀ i j a b, i ≠ j → P !! i = Some a → P !! j = Some b →
       arg_type a ≠ arg_type b).
Proof.
  exists (is_types_unique_v (arg_type <$> P)).
  split; [apply is_types_val_unique_v_types|].
  unfold is_types_unique_v.
  by rewrite is_types_unique_NoDup, NoDup_types_positions.
Qed.

(** C2.  For an allowed list [TypeFirst, TypeRest...] of at least one type
    and a query pack [Params], [is_type_list<...>::contains_v<Params...>] is
    [true] iff the pack is empty or each of its types is identical to a type
    of the allowed list.  A type of the pack that converts to a type of the
    allowed list without being identical to any of them makes the result
    [false]. *)
Theorem is_type_list_contains_v_exact_membership
    (TypeFirst : ty) (TypeRest : list ty) (Params : list ty) :
  (is_type_list_contains_v TypeFirst TypeRest Params = true
   ↔ Params = [] ∨ ∀ T, T ∈ Params → T ∈ TypeFirst :: TypeRest)
  ∧ (∀ T A, T ∈ Params → A ∈ TypeFirst :: TypeRest →
       convertible T A = true → T ∉ TypeFirst :: TypeRest →
       is_type_list_contains_v TypeFirst TypeRest Params = false).
Proof.
  split.
  - rewrite is_type_list_contains_v_Forall, Forall_forall. split; [by right|].
    intros [->|H]; [|done]. by intros T ?%elem_of_nil.
  - intros T A HT _ _ Hnot. apply not_true_iff_false.
    rewrite is_type_list_contains_v_Forall, Forall_forall.
    intros H. by apply Hnot, H.
Qed.

(** C3.  When the pack holds at position [i] a value [v] whose declared
    type is [Target], top-level cv-qualifiers of [Target] apart, and no
    value of that declared type before [i],
    [type<Target, defaultValue>::get] returns the content of [v] as a value
    of type [Target], whatever conversions to [Target] the types of the
    skipped values have.  When the declared type of [v] is exactly [Target]
    the result is [v] itself.  Any other pack with [v] at position [i] and
    no value of that declared type before it gives the same result. *)
Theorem type_get_first_of_type (Target : ty) (defaultValue : val)
    (Q : list (arg ty val)) (i : nat) (v : arg ty val) :
  Q !! i = Some v →
  arg_type v = unqual Target →
  (∀ j w, j < i → Q !! j = Some w → arg_type w ≠ unqual Target) →
  type_get unqual convertible convert Target defaultValue Q
  = Some (Arg Target (arg_value v))
  ∧ (arg_type v = Target →
     type_get unqual convertible convert Target defaultValue Q = Some v)
  ∧ ∀ Q' : list (arg ty val),
      Q' !! i = Some v →
      (∀ j w, j < i → Q' !! j = Some w → arg_type w ≠ unqual Target) →
      type_get unqual convertible convert Target defaultValue Q'
      = type_get unqual convertible convert Target defaultValue Q.
Proof.
  intros Hi Hv Hbefore.
  rewrite (type_get_first_match _ _ Q i v) by done.
  split; [done|]. split.
  - intros <-. by rewrite Arg_eta.
  - intros Q' Hi' Hbefore'. by apply (type_get_first_match _ _ Q' i v).
Qed.



(** C6.  [is_type_list<...>::contains_v] gives the same result on a query
    pack and on any permutation of it. *)
Theorem is_type_list_contains_v_query_permutation
    (TypeFirst : ty) (TypeRest : list ty) (Q Q' : list ty) :
  Q ≡ₚ Q' →
  is_type_list_contains_v TypeFirst TypeRest Q
  = is_type_list_contains_v TypeFirst TypeRest Q'.
Proof.
  intros HQ. apply eq_true_iff_eq.
  by rewrite !is_type_list_contains_v_Forall, HQ.
Qed.

(** C7.  [is_type_list<...>::contains_v] gives the same result for an allowed
    list and for any permutation of it. *)
Theorem is_type_list_contains_v_allowed_permutation
    (TypeFirst : ty) (TypeRest : list ty) (TypeFirst' : ty)
    (TypeRest' : list ty) (Q : list ty) :
  TypeFirst :: TypeRest ≡ₚ TypeFirst' :: TypeRest' →
  is_type_list_contains_v TypeFirst TypeRest Q
  = is_type_list_contains_v TypeFirst' TypeRest' Q.
Proof.
  intros HA. apply eq_true_iff_eq.
  rewrite !is_type_list_contains_v_Forall, !Forall_forall.
  by setoid_rewrite HA.
Qed.

(** C8.  Inserting, at any position [k], a duplicate of an element of a pack
    makes both uniqueness checks return [false]: the type-level check on a
    pack of types and the value-level check on a pack of values.  This holds
    for every pack, so for every otherwise-unique one. *)
Theorem uniqueness_inserted_duplicate
    (Types : list ty) (args : list (arg ty val)) (k : nat) :
  (∀ T, T ∈ Types →
     is_types_unique_v (take k Types ++ T :: drop k Types) = false)
  ∧ (∀ a, a ∈ args →
       is_types_val_unique_v unqual convertible (take k args ++ a :: drop k args)
       = Some false).
Proof.
  split.
  - intros T HT. by apply is_types_unique_inserted.
  - intros a Ha. rewrite is_types_val_unique_v_types. f_equal.
    rewrite fmap_app, fmap_cons, fmap_take, fmap_drop.
    by apply is_types_unique_inserted, list_elem_of_fmap_2.
Qed.

(** C9.  The empty pack and every pack of one element are unique, for the
    type-level check and for the value-level check. *)
Theorem uniqueness_empty_and_singleton :
  is_types_unique_v ([] : list ty) = true
  ∧ (∀ T : ty, is_types_unique_v [T] = true)
  ∧ is_types_val_unique_v unqual convertible ([] : list (arg ty val)) = Some true
  ∧ (∀ a : arg ty val, is_types_val_unique_v unqual convertible [a] = Some true).
Proof. by repeat split. Qed.

(** C10.  On every pack of values, the value-level uniqueness check returns
    the result of the type-level uniqueness check on the declared types of
    the values. *)
Theorem is_types_val_unique_v_is_types_unique_v (args : list (arg ty val)) :
  is_types_val_unique_v unqual convertible args
  = Some (is_types_unique_v (arg_type <$> args)).
Proof.
  unfold is_types_val_unique_v, is_types_unique_v.
  rewrite resolve_nullary_unary_variadic, duplicate_types_val_types.
  by destruct args as [|? [|? ?]].
Qed.

(** ** How the checks and the extractor compose *)

Lemma type_get_unique_pack (Target : ty) (defaultValue : val)
    (args : list (arg ty val)) (v : arg ty val) :
  NoDup (arg_type <$> args) → v ∈ args → arg_type v = unqual Target →
  type_get unqual convertible convert Target defaultValue args
  = Some (Arg Target (arg_value v)).
Proof.
  induction args as [|first rest IH]; intros Hnodup Hv Htype.
  - by apply elem_of_nil in Hv.
  - rewrite fmap_cons, NoDup_cons in Hnodup. destruct Hnodup as [Hfirst Hrest].
    rewrite type_get_cons. apply elem_of_cons in Hv as [->|Hv].
    + by rewrite bool_decide_true.
    + rewrite bool_decide_false; [by apply IH|].
      intros Heq. apply Hfirst. rewrite Heq, <- Htype.
      by apply list_elem_of_fmap_2.
Qed.

Lemma type_get_result (Target : ty) (defaultValue : val)
    (args : list (arg ty val)) (r : arg ty val) :
  type_get unqual convertible convert Target defaultValue args = Some r →
  r = Arg Target defaultValue
  ∨ ∃ a, a ∈ args ∧ arg_type a = unqual Target ∧ r = Arg Target (arg_value a).
Proof.
  induction args as [|first rest IH].
  - rewrite type_get_nil. intros [= <-]. by left.
  - rewrite type_get_cons. case_bool_decide as Hfirst.
    + intros [= <-]. right. exists first. split; [by left|done].
    + intros [->|(a & Ha & Htype & ->)]%IH; [by left|].
      right. exists a. split; [by right|done].
Qed.



(** X2.  Both uniqueness checks give the same result on a pack and on any
    permutation of it. *)
Theorem uniqueness_permutation
    (Q Q' : list ty) (args args' : list (arg ty val)) :
  Q ≡ₚ Q' → args ≡ₚ args' →
  is_types_unique_v Q = is_types_unique_v Q'
  ∧ is_types_val_unique_v unqual convertible args
    = is_types_val_unique_v unqual convertible args'.
Proof.
  intros HQ Hargs.
  assert (Htypes : ∀ l l' : list ty, l ≡ₚ l' →
            is_types_unique_v l = is_types_unique_v l').
  { intros l l' Hl. apply eq_true_iff_eq. unfold is_types_unique_v.
    by rewrite !is_types_unique_NoDup, Hl. }
  split; [by apply Htypes|].
  rewrite !is_types_val_unique_v_types. f_equal.
  apply Htypes. by rewrite Hargs.
Qed.

(** X3.  The concatenation of two packs of types is unique iff both packs
    are unique and no type of the first is a type of the second. *)
Theorem is_types_unique_v_app (Q1 Q2 : list ty) :
  is_types_unique_v (Q1 ++ Q2) = true
  ↔ is_types_unique_v Q1 = true ∧ is_types_unique_v Q2 = true
    ∧ ∀ T, T ∈ Q1 → T ∉ Q2.
Proof.
  unfold is_types_unique_v. rewrite !is_types_unique_NoDup, NoDup_app.
  split; intros (? & ? & ?); done.
Qed.

(** X4.  Removing elements from a unique pack of types leaves a unique
    pack. *)
Theorem is_types_unique_v_sub_pack (Q Q' : list ty) :
  Q' `sublist_of` Q →
  is_types_unique_v Q = true → is_types_unique_v Q' = true.
Proof.
  unfold is_types_unique_v. rewrite !is_types_unique_NoDup.
  intros Hsub Hnodup. by apply (sublist_NoDup Q' Q).
Qed.

(** X5.  [is_type_list<...>::contains_v] on the concatenation of two query
    packs is the conjunction of its results on the two packs. *)
Theorem is_type_list_contains_v_app
    (TypeFirst : ty) (TypeRest : list ty) (Q1 Q2 : list ty) :
  is_type_list_contains_v TypeFirst TypeRest (Q1 ++ Q2)
  = is_type_list_contains_v TypeFirst TypeRest Q1
    && is_type_list_contains_v TypeFirst TypeRest Q2.
Proof.
  apply eq_true_iff_eq.
  by rewrite andb_true_iff, !is_type_list_contains_v_Forall, Forall_app.
Qed.

(** X6.  Membership is a preorder on allowed lists: an allowed list
    contains itself, and a pack contained in an allowed list all of whose
    types are in a second allowed list is contained in the second one. *)
Theorem is_type_list_contains_v_preorder
    (TypeFirst : ty) (TypeRest : list ty) (TypeFirst' : ty)
    (TypeRest' : list ty) (Q : list ty) :
  is_type_list_contains_v TypeFirst TypeRest (TypeFirst :: TypeRest) = true
  ∧ (is_type_list_contains_v TypeFirst' TypeRest' (TypeFirst :: TypeRest) = true →
     is_type_list_contains_v TypeFirst TypeRest Q = true →
     is_type_list_contains_v TypeFirst' TypeRest' Q = true).
Proof.
  rewrite !is_type_list_contains_v_Forall, !Forall_forall. split; [done|].
  intros Hallowed HQ T HT. by apply Hallowed, HQ.
Qed.

Lemma unique_members_length
    (TypeFirst : ty) (TypeRest : list ty) (Q : list ty) :
  is_types_unique Q = true →
  is_type_list_contains_v TypeFirst TypeRest Q = true →
  length Q ≤ length (TypeFirst :: TypeRest).
Proof.
  rewrite is_types_unique_NoDup, is_type_list_contains_v_Forall, Forall_forall.
  intros Hnodup Hin. by apply submseteq_length, NoDup_submseteq.
Qed.

(** X7.  A pack of types that is unique and contained in an allowed list has
    at most as many types as the allowed list. *)
Theorem unique_members_bounded
    (TypeFirst : ty) (TypeRest : list ty) (Q : list ty) :
  is_types_unique_v Q = true →
  is_type_list_contains_v TypeFirst TypeRest Q = true →
  length Q ≤ length (TypeFirst :: TypeRest).
Proof. apply unique_members_length. Qed.


(** X9.  On a pack that the value-level uniqueness check accepts,
    [type::get] does not depend on the order of the arguments. *)
Theorem type_get_permutation_of_unique_pack (Target : ty) (defaultValue : val)
    (Q Q' : list (arg ty val)) :
  is_types_val_unique_v unqual convertible Q = Some true →
  Q ≡ₚ Q' →
  type_get unqual convertible convert Target defaultValue Q
  = type_get unqual convertible convert Target defaultValue Q'.
Proof.
  rewrite is_types_val_unique_v_types. intros [= Hunique] HQ.
  unfold is_types_unique_v in Hunique.
  apply is_types_unique_NoDup in Hunique.
  assert (Hunique' : NoDup (arg_type <$> Q')) by by rewrite <- HQ.
  destruct (type_get_typed Target defaultValue Q) as (r & Hget & _).
  destruct (type_get_result _ _ _ _ Hget) as [->|(a & Ha & Htype & ->)].
  - destruct (type_get_typed Target defaultValue Q') as (r' & Hget' & _).
    rewrite Hget, Hget'. f_equal.
    destruct (type_get_result _ _ _ _ Hget') as [->|(a' & Ha' & Htype' & ->)];
      [done|].
    rewrite (type_get_unique_pack _ _ Q a') in Hget;
      [injection Hget as Heq; by rewrite Heq|done| |done].
    by rewrite HQ.
  - rewrite Hget. symmetry.
    apply type_get_unique_pack; [done| |done]. by rewrite <- HQ.
Qed.



End var_pack_properties.

(** * Properties of packs of [ConstValue]s *)

Section const_value_properties.

Context {ty : Type} `{!EqDecision ty} {val : Type} `{!EqDecision val}.
Context (unqual : ty → ty).
Context (convertible : const_type ty val → const_type ty val → bool).

#[local] Instance const_t_inj : Inj (=) (=) (@const_t ty val).
Proof. by intros a b [= ->]. Qed.

Lemma const_v_types (P : list (arg ty val)) :
  arg_type <$> (const_v <$> P) = const_t <$> P.
Proof. by rewrite <- list_fmap_compose. Qed.

Lemma const_t_unqualified (P : list (arg ty val)) :
  const_unqual unqual <$> (const_t <$> P) = const_t <$> P.
Proof. by rewrite <- list_fmap_compose. Qed.

Lemma NoDup_constants_positions (P : list (arg ty val)) :
  NoDup P
  ↔ ∀ i j a b, i ≠ j → P !! i = Some a → P !! j = Some b →
      ¬ (arg_type a = arg_type b ∧ arg_value a = arg_value b).
Proof.
  rewrite NoDup_alt. split.
  - intros H i j [Ta va] [Tb vb] Hij Ha Hb [Htype Hvalue]. simpl in *. subst.
    by apply Hij, (H i j (Arg Tb vb)).
  - intros H i j a Hi Hj. destruct (decide (i = j)) as [|Hij]; [done|].
    by destruct (H i j a a Hij Hi Hj).
Qed.

(** X12.  On constants wrapped by [const_v] (by [const_t] for the type-level
    check) the uniqueness checks compare values: the pack of wrapped
    constants is unique iff no two distinct positions hold constants of the
    same type and the same value. *)
Theorem const_v_uniqueness_compares_values (P : list (arg ty val)) :
  ∃ unique,
    is_types_val_unique_v (const_unqual unqual) convertible (const_v <$> P)
    = Some unique
    ∧ is_types_unique_v (const_t <$> P) = unique
    ∧ (unique = true ↔
       ∀ i j a b, i ≠ j → P !! i = Some a → P !! j = Some b →
         ¬ (arg_type a = arg_type b ∧ arg_value a = arg_value b)).
Proof.
  exists (is_types_unique_v (const_t <$> P)).
  split; [|split; [done|]].
  - by rewrite is_types_val_unique_v_types, const_v_types.
  - unfold is_types_unique_v.
    by rewrite is_types_unique_NoDup, (NoDup_fmap const_t),
      NoDup_constants_positions.
Qed.

(** X13.  With an allowed list of [const_t]s,
    [is_type_val_list<...>::contains_v] on constants wrapped by [const_v] is
    an allow-list of constants: it returns [true] iff every constant of the
    pack is, in type and in value, one of the allowed constants. *)
Theorem const_v_allowed_constants
    (first : arg ty val) (rest : list (arg ty val)) (Q : list (arg ty val)) :
  ∃ inside,
    is_type_val_list_contains_v (const_unqual unqual) convertible
      (const_t first) (const_t <$> rest) (const_v <$> Q) = Some inside
    ∧ (inside = true ↔ ∀ v, v ∈ Q → v ∈ first :: rest).
Proof.
  eexists. split; [apply is_type_val_list_contains_v_types|].
  rewrite const_t_unqualified.
  rewrite is_type_list_contains_v_Forall, const_v_types, Forall_fmap,
    Forall_forall.
  change (const_unqual unqual (const_t first) :: (const_t <$> rest))
    with (const_t <$> first :: rest).
  split; intros H v Hv.
  - by apply (list_elem_of_fmap_inj const_t), H.
  - by apply list_elem_of_fmap_2, H.
Qed.

End const_value_properties.

(** * The unit tests evaluated, and instances of the properties *)

Section unit_test_checks.

Import unit_tests.

Local Open Scope Z_scope.

(** ** The assertions of [class Test] *)

Example check_unique_lists :
  is_types_unique_v [TestType1; TestType2; TestType3; TestType6] = true
  ∧ is_types_unique_v
      [TestType1; TestType2; TestType3; TestType6; TestType4; TestType9; TestType7]
    = true
  ∧ unique_args
      [init TestType1; TestType4_TestValue0; init TestType3; TestType6_TestValue0]
    = true
  ∧ unique_args [] = true.
Proof. by repeat split. Qed.

Example check_not_unique :
  is_types_unique_v
    [TestType1; TestType2; TestType3; TestType6; TestType4; TestType3; TestType7]
  = false
  ∧ is_types_unique_v
      [TestType1; TestType2; TestType3; TestType6; TestType2; TestType8; TestType7]
    = false
  ∧ is_types_unique_v [TestType1; TestType6; TestType4; TestType1; TestType7] = false
  ∧ is_types_unique_v [TestType4; TestType6; TestType4; TestType5; TestType7] = false
  ∧ is_types_unique_v [TestType1; TestType2; TestType6; TestType6] = false
  ∧ is_types_unique_v
      [TestType1; TestType2; TestType3; TestType7; TestType4; TestType9; TestType7]
    = false
  ∧ unique_args
      [init TestType1; init TestType9; init TestType3; init TestType6;
       init TestType9; init TestType7]
    = false.
Proof. by repeat split. Qed.

Example check_type_list :
  is_type_list_contains_v TestType1 [TestType2; TestType3; TestType6] [TestType1]
  = true
  ∧ is_type_list_contains_v TestType1 [TestType2; TestType9; TestType3; TestType6]
      [TestType9] = true
  ∧ is_type_list_contains_v TestType1 [TestType2; TestType9; TestType3; TestType6]
      [TestType6] = true
  ∧ is_type_list_contains_v TestType1 [TestType2; TestType9; TestType3; TestType6]
      [TestType7] = false
  ∧ is_type_list_contains_v TestType1 [TestType2; TestType3] [TestType1; TestType3]
    = true.
Proof. by repeat split. Qed.

Example check_types_list_of_types :
  types1234789 [TestType1; TestType4; TestType7; TestType8] = true
  ∧ types1234789 [TestType8; TestType7; TestType1; TestType4] = true
  ∧ types1234789 [TestType5; TestType4; TestType7; TestType8] = false
  ∧ types1234789 [TestType1; TestType5; TestType7; TestType8] = false
  ∧ types1234789 [TestType1; TestType4; TestType7; TestType5] = false
  ∧ types1234789 [TestType9; TestType7; TestType1; TestType4] = true
  ∧ types1234789 [TestType8; TestType9; TestType1; TestType4] = true
  ∧ types1234789 [TestType8; TestType3; TestType1; TestType9] = true
  ∧ types1234789 [TestType1; TestType7; TestType3; TestType4] = true
  ∧ types1234789 [TestType8; TestType1; TestType3; TestType4] = true
  ∧ types1234789 [TestType8; TestType3; TestType7; TestType1] = true.
Proof. by repeat split. Qed.

Example check_with_function :
  types456inside [TestType4_TestValue2] = true
  ∧ types456inside [TestType5_TestValue0] = true
  ∧ types456inside [TestType6_TestValue1] = true
  ∧ types456inside [init TestType7] = false
  ∧ types456inside [init TestType7; TestType5_TestValue0; TestType6_TestValue3] = false
  ∧ types456inside [TestType4_TestValue0; init TestType7; TestType6_TestValue3] = false
  ∧ types456inside [TestType4_TestValue1; TestType5_TestValue0; init TestType7] = false
  ∧ types456inside [TestType4_TestValue1; TestType5_TestValue0; TestType6_TestValue3]
    = true
  ∧ types456inside [] = true.
Proof. by repeat split. Qed.

Example check_get_by_type :
  get TestType4 0 [true_; TestType4_TestValue2; Arg UnsignedLong 367]
  = Some TestType4_TestValue2
  ∧ get TestType4 0 [true_; Arg Int (-1); Arg Unsigned 367] = Some (Arg TestType4 0)
  ∧ get TestType4 0xA100 [true_; Arg Int (-1); Arg Unsigned 367]
    = Some TestType4_TestValue1.
Proof. by repeat split. Qed.

Example check_types_val_unique :
  is_types_val_unique_v unqual convertible
    [TestType4_TestValue2; TestType5_TestValue1; true_] = Some true
  ∧ is_types_val_unique_v unqual convertible
      [TestType4_TestValue2; false_; TestType5_TestValue1; true_] = Some false
  ∧ is_types_val_unique_v unqual convertible
      [TestType4_TestValue2; TestType5_TestValue1; true_; Arg Int (-36);
       Arg Unsigned 5743737; TestType6_TestValue3] = Some true
  ∧ unique_args2
      [init TestType1; TestType4_TestValue0; init TestType3; TestType6_TestValue0]
    = Some true
  ∧ unique_args2
      [init TestType1; init TestType9; init TestType3; init TestType6;
       init TestType9; init TestType7]
    = Some false
  ∧ unique_args2 [] = Some true.
Proof. by repeat split. Qed.

Example check_type_list_with_params :
  signed_type4_bool_unsigned_long [TestType4_TestValue2; Arg Long (-56836)]
  = Some true
  ∧ signed_type4_bool_unsigned_long
      [TestType4_TestValue2; Arg Long (-56836); Arg UnsignedLong 745983548]
    = Some false
  ∧ signed_type4_bool_unsigned_long [] = Some true.
Proof. by repeat split. Qed.

(** An overload set made of [get(const Type first)] alone would accept
    [true] for an [unsigned long] parameter and convert it: the other
    overloads of [type::get] are what makes it skip such an argument. *)
Example check_conversion_is_viable :
  resolve unqual convertible
    [ Overload false [Fixed UnsignedLong] false []
        (pass unqual convert UnsignedLong <$> head [true_]) ]
    [Bool]
  = Some (Arg UnsignedLong 1)
  ∧ get UnsignedLong 0 [true_] = Some (Arg UnsignedLong 0).
Proof. by split. Qed.

(** A cv-qualified type as the target of [type::get] and as an allowed
    type: the by-value parameters [const Type] and [const TypeFirst] have the
    type [int], so that [type<const int, 7>::get(5)] is [5] and
    [is_type_val_list<const int>::contains_v(5)] is [true], where
    [is_type_list<const int>::contains_v<int>] is [false]. *)
Example check_cv_qualified_class_types :
  get ConstInt 7 [Arg Int 5] = Some (Arg ConstInt 5)
  ∧ is_type_val_list_contains_v unqual convertible ConstInt []
      [Arg Int 5 : value] = Some true
  ∧ is_type_list_contains_v ConstInt [] [Int] = false.
Proof. by repeat split. Qed.

(** ** Instances of the properties *)

(** C1, counterexample.  In the pack
    [(TestType4::TestValue2, false, TestType5::TestValue1, true)] of the
    unit tests no two positions hold values of identical declared type and
    equal contents, and the check does not return [true]. *)
Lemma is_types_val_unique_v_ignores_contents :
  ¬ (is_types_val_unique_v unqual convertible same_type_different_contents = Some true
     ↔ ∀ i j a b, i ≠ j →
         same_type_different_contents !! i = Some a →
         same_type_different_contents !! j = Some b →
         ¬ (arg_type a = arg_type b ∧ arg_value a = arg_value b)).
Proof.
  intros [_ H].
  enough (Hunique : is_types_val_unique_v unqual convertible
                      same_type_different_contents = Some true)
    by discriminate Hunique.
  apply H. intros i j a b Hij Ha Hb [Htype Hcontent].
  destruct i as [|[|[|[|i]]]]; destruct j as [|[|[|[|j]]]];
    simplify_eq/=; done.
Qed.

(** C1 (amended), on the same pack. *)
Lemma is_types_val_unique_v_declared_types_distinct_witness :
  ∃ unique,
    is_types_val_unique_v unqual convertible same_type_different_contents = Some unique ∧
    (unique = true ↔
     ∀ i j a b, i ≠ j →
       same_type_different_contents !! i = Some a →
       same_type_different_contents !! j = Some b →
       arg_type a ≠ arg_type b).
Proof.
  apply (is_types_val_unique_v_declared_types_distinct unqual convertible
           same_type_different_contents).
Defined.

(** C2: [bool] converts to [int] and is not in the list [int, long]. *)
Lemma is_type_list_contains_v_exact_membership_witness :
  (Bool ∈ [Bool; Long]) ∧ (Int ∈ [Int; Long]) ∧ (convertible Bool Int = true) ∧
  (Bool ∉ [Int; Long]) ∧
  (is_type_list_contains_v Int [Long] [Bool; Long] = false).
Proof.
  assert (Hnot : Bool ∉ [Int; Long]).
  { by intros [?|[?|?%elem_of_nil]%elem_of_cons]%elem_of_cons. }
  split; [by left|]. split; [by left|]. split; [done|]. split; [done|].
  apply (proj2 (is_type_list_contains_v_exact_membership convertible
                  Int [Long] [Bool; Long]) Bool Int);
    [by left|by left|done|done].
Defined.

(** C3: [true] and [-1] convert to [unsigned long] and are skipped. *)
Lemma type_get_first_of_type_witness :
  arithmetic_then_unsigned_long !! 2%nat = Some (Arg UnsignedLong 367) ∧
  arg_type (Arg UnsignedLong 367) = unqual UnsignedLong ∧
  (∀ j w, (j < 2)%nat → arithmetic_then_unsigned_long !! j = Some w →
     arg_type w ≠ unqual UnsignedLong) ∧
  arg_type (Arg UnsignedLong 367) = UnsignedLong ∧
  get UnsignedLong 0 arithmetic_then_unsigned_long
  = Some (Arg UnsignedLong 367).
Proof.
  assert (Hbefore : ∀ j w, (j < 2)%nat →
            arithmetic_then_unsigned_long !! j = Some w →
            arg_type w ≠ unqual UnsignedLong).
  { intros [|[|j]] w Hj Hw; simplify_eq/=; [done|done|lia]. }
  split; [done|]. split; [done|]. split; [done|]. split; [done|].
  by apply (type_get_first_of_type unqual convertible convert UnsignedLong 0
              arithmetic_then_unsigned_long 2%nat
              (Arg UnsignedLong 367)).
Defined.





(** C6: the packs of "Check types list of types" and of its reverse. *)
Lemma is_type_list_contains_v_query_permutation_witness :
  [TestType1; TestType4; TestType7; TestType8]
    ≡ₚ [TestType8; TestType7; TestType1; TestType4] ∧
  types1234789 [TestType1; TestType4; TestType7; TestType8]
  = types1234789 [TestType8; TestType7; TestType1; TestType4].
Proof.
  assert (Hperm : [TestType1; TestType4; TestType7; TestType8]
                    ≡ₚ [TestType8; TestType7; TestType1; TestType4])
    by solve_Permutation.
  split; [done|].
  by apply is_type_list_contains_v_query_permutation.
Defined.

(** C7: a rotation of the allowed list. *)
Lemma is_type_list_contains_v_allowed_permutation_witness :
  [TestType1; TestType2; TestType3] ≡ₚ [TestType3; TestType1; TestType2] ∧
  is_type_list_contains_v TestType1 [TestType2; TestType3] [TestType1; TestType3]
  = is_type_list_contains_v TestType3 [TestType1; TestType2] [TestType1; TestType3].
Proof.
  assert (Hperm : [TestType1; TestType2; TestType3]
                    ≡ₚ [TestType3; TestType1; TestType2])
    by solve_Permutation.
  split; [done|].
  by apply is_type_list_contains_v_allowed_permutation.
Defined.

(** C8: a duplicate inserted at position 1. *)
Lemma uniqueness_inserted_duplicate_witness :
  TestType6 ∈ [TestType1; TestType2; TestType6] ∧
  is_types_unique_v [TestType1; TestType6; TestType2; TestType6] = false ∧
  init TestType1 ∈ [init TestType1; TestType4_TestValue0] ∧
  is_types_val_unique_v unqual convertible
    [init TestType1; init TestType1; TestType4_TestValue0] = Some false.
Proof.
  split; [by right; right; left|].
  split.
  - apply (proj1 (uniqueness_inserted_duplicate unqual convertible
                    [TestType1; TestType2; TestType6] ([] : list value) 1%nat)
             TestType6).
    by right; right; left.
  - split; [by left|].
    apply (proj2 (uniqueness_inserted_duplicate unqual convertible
                    [] [init TestType1; TestType4_TestValue0] 1%nat)
             (init TestType1)).
    by left.
Defined.

(** ** The constrained function of the unit tests *)

Example check_requires_expression :
  test_with_requires123 [init TestType1; init TestType3] = Some true
  ∧ test_with_requires123 [init TestType2] = Some true
  ∧ test_with_requires123 [] = Some true.
Proof. by repeat split. Qed.

(** X14.  A call of [test_with_requires123] is well-formed exactly on a pack
    whose declared types are pairwise distinct and among [TestType1],
    [TestType2] and [TestType3]; such a pack has at most three arguments. *)
Theorem test_with_requires123_accepts (args : list value) :
  (test_with_requires123 args = Some true
   ↔ NoDup (arg_type <$> args)
     ∧ ∀ a, a ∈ args → arg_type a ∈ [TestType1; TestType2; TestType3])
  ∧ (test_with_requires123 args = Some true → (length args ≤ 3)%nat).
Proof.
  unfold test_with_requires123, types_unique, is_types_unique_v.
  destruct (is_types_unique (arg_type <$> args)) eqn:Hunique;
    destruct (is_type_list_contains_v TestType1 [TestType2; TestType3]
                (arg_type <$> args)) eqn:Hinside; simpl.
  - split.
    + split; [intros _|done]. split.
      * by apply is_types_unique_NoDup.
      * apply is_type_list_contains_v_Forall in Hinside.
        by rewrite Forall_fmap, Forall_forall in Hinside.
    + intros _.
      pose proof (unique_members_length TestType1 [TestType2; TestType3]
                    _ Hunique Hinside) as Hlength.
      by rewrite length_fmap in Hlength.
  - split; [|done]. split; [done|]. intros [_ Hin].
    apply not_true_iff_false in Hinside. destruct Hinside.
    by rewrite is_type_list_contains_v_Forall, Forall_fmap, Forall_forall.
  - split; [|done]. split; [done|]. intros [Hnodup _].
    apply not_true_iff_false in Hunique. destruct Hunique.
    by apply is_types_unique_NoDup.
  - split; [|done]. split; [done|]. intros [Hnodup _].
    apply not_true_iff_false in Hunique. destruct Hunique.
    by apply is_types_unique_NoDup.
Qed.

(** ** Constants wrapped in [ConstValue] *)

(** Two [int] constants of different values: not unique as plain values,
    unique once wrapped by [const_v]. *)
Example check_const_v_unique :
  is_types_val_unique_v unqual convertible [Arg Int 5; Arg Int 7] = Some false
  ∧ is_types_val_unique_v (const_unqual unqual) no_conversion (const_v <$> [Arg Int 5; Arg Int 7])
    = Some true
  ∧ is_types_val_unique_v (const_unqual unqual) no_conversion (const_v <$> [Arg Int 5; Arg Int 5])
    = Some false.
Proof. by repeat split. Qed.

(** ** Instances of the further properties *)

(** X2. *)
Lemma uniqueness_permutation_witness :
  [TestType1; TestType2; TestType6] ≡ₚ [TestType6; TestType1; TestType2] ∧
  [init TestType1; TestType4_TestValue0]
    ≡ₚ [TestType4_TestValue0; init TestType1] ∧
  is_types_unique_v [TestType1; TestType2; TestType6]
  = is_types_unique_v [TestType6; TestType1; TestType2] ∧
  is_types_val_unique_v unqual convertible [init TestType1; TestType4_TestValue0]
  = is_types_val_unique_v unqual convertible [TestType4_TestValue0; init TestType1].
Proof.
  assert (H1 : [TestType1; TestType2; TestType6]
                 ≡ₚ [TestType6; TestType1; TestType2]) by solve_Permutation.
  assert (H2 : [init TestType1; TestType4_TestValue0]
                 ≡ₚ [TestType4_TestValue0; init TestType1])
    by solve_Permutation.
  split; [done|]. split; [done|].
  by apply uniqueness_permutation.
Defined.

(** X4. *)
Lemma is_types_unique_v_sub_pack_witness :
  [TestType1; TestType3] `sublist_of` [TestType1; TestType2; TestType3] ∧
  is_types_unique_v [TestType1; TestType2; TestType3] = true ∧
  is_types_unique_v [TestType1; TestType3] = true.
Proof.
  assert (H : [TestType1; TestType3]
                `sublist_of` [TestType1; TestType2; TestType3]).
  { apply sublist_skip, sublist_cons, sublist_skip, sublist_nil. }
  split; [done|]. split; [done|].
  by apply (is_types_unique_v_sub_pack [TestType1; TestType2; TestType3]).
Defined.

(** X6. *)
Lemma is_type_list_contains_v_preorder_witness :
  is_type_list_contains_v TestType1 [TestType2; TestType3]
    [TestType1; TestType2] = true ∧
  is_type_list_contains_v TestType1 [TestType2] [TestType2] = true ∧
  is_type_list_contains_v TestType1 [TestType2; TestType3] [TestType2] = true.
Proof.
  split; [done|]. split; [done|].
  by apply (proj2 (is_type_list_contains_v_preorder
                     TestType1 [TestType2] TestType1 [TestType2; TestType3]
                     [TestType2])).
Defined.

(** X7. *)
Lemma unique_members_bounded_witness :
  is_types_unique_v [TestType1; TestType3] = true ∧
  is_type_list_contains_v TestType1 [TestType2; TestType3]
    [TestType1; TestType3] = true ∧
  (length [TestType1; TestType3] ≤ length [TestType1; TestType2; TestType3])%nat.
Proof.
  split; [done|]. split; [done|].
  by apply (unique_members_bounded TestType1 [TestType2; TestType3]).
Defined.



(** X9. *)
Lemma type_get_permutation_of_unique_pack_witness :
  is_types_val_unique_v unqual convertible
    [TestType4_TestValue2; true_; Arg Long 5] = Some true ∧
  [TestType4_TestValue2; true_; Arg Long 5]
    ≡ₚ [Arg Long 5; TestType4_TestValue2; true_] ∧
  get Bool 0 [TestType4_TestValue2; true_; Arg Long 5]
  = get Bool 0 [Arg Long 5; TestType4_TestValue2; true_].
Proof.
  assert (H : [TestType4_TestValue2; true_; Arg Long 5]
                ≡ₚ [Arg Long 5; TestType4_TestValue2; true_])
    by solve_Permutation.
  split; [done|]. split; [done|].
  by apply type_get_permutation_of_unique_pack.
Defined.



(** X14. *)
Lemma test_with_requires123_accepts_witness :
  test_with_requires123 [init TestType1; init TestType3] = Some true ∧
  (length [init TestType1; init TestType3] ≤ 3)%nat.
Proof.
  split; [done|].
  by apply (proj2 (test_with_requires123_accepts
                     [init TestType1; init TestType3])).
Defined.

End unit_test_checks.
